(** * Task registry: the Flask handlers of [task.py] over their SQLite table

    The handlers of [task.py] are embedded as functions from the contents of
    the [tasks] table (and the request) to the new contents of the table and
    the HTTP response.  Each SQL statement the handlers issue has a
    definition of its own in the first part of the file; the handlers follow,
    with the early [return]s of the Python code as the branches of nested
    conditionals, in the order of the source.

    Conventions of the embedding:
    - a row is a record with the five columns of [CREATE TABLE tasks]; the
      table is the list of its rows in rowid order, which is insertion order
      (a new rowid is larger than every rowid in use);
    - [task_str_id] and [description] are TEXT values (strings); the
      [estimated_time_minutes] of a request keeps its dynamic Python type,
      because [create_task] tests it with [isinstance]; so does the
      [new_status] of a request, which [update_task_status] tests with [in];
      a request body is a JSON object, or none: a body that is not an
      object, and an id or a description that is not a string, are not
      requests of this embedding;
    - a Python [int] is a mathematical integer; an SQLite INTEGER is a
      64-bit one: binding a Python [int] outside that range raises
      [OverflowError], and a [LIMIT] outside it fails with
      'datatype mismatch'; both reach the outer [except] of the handler,
      which answers 500 with the text of the exception;
    - [submitted_at] is a reading of the database clock ([CURRENT_TIMESTAMP])
      as a number of seconds; the reading is an argument of [create_task];
    - a response is the pair of the JSON body and the status code, as the
      handlers return it; [jsonify(x)] alone carries status 200. *)

From Stdlib Require Import ZArith List String Ascii Bool Lia.
From Stdlib Require Import Permutation Sorted.
Import ListNotations.

Open Scope string_scope.
Open Scope list_scope.
Open Scope Z_scope.

(** ** Values of a decoded JSON body *)

(** A Python value as [request.get_json()] produces it.  Only the contents
    the handlers read are kept: numbers and strings. *)
Inductive pyval : Type :=
| PyNone
| PyBool (b : bool)
| PyInt (n : Z)
| PyFloat
| PyStr (s : string)
| PyList
| PyDict.

(** [isinstance(v, int)]: [bool] is a subclass of [int] in Python, with
    [True == 1] and [False == 0]. *)
Definition as_int (v : pyval) : option Z :=
  match v with
  | PyInt n => Some n
  | PyBool true => Some 1
  | PyBool false => Some 0
  | _ => None
  end.

(** [v in l] for a list [l] of strings: equality with a string holds for
    strings only. *)
Definition str_in (s : string) (l : list string) : bool :=
  existsb (String.eqb s) l.

Definition py_in (v : pyval) (l : list string) : bool :=
  match v with
  | PyStr s => str_in s l
  | _ => false
  end.

(** [repr] of a list of plain strings, as an f-string prints it. *)
Definition repr_str (s : string) : string := "'" ++ s ++ "'".

Definition repr_list (l : list string) : string :=
  "[" ++ String.concat ", " (map repr_str l) ++ "]".

(** [str.upper] on ASCII letters. *)
Definition ascii_upper (c : ascii) : ascii :=
  let n := nat_of_ascii c in
  if (Nat.leb 97 n && Nat.leb n 122)%bool then ascii_of_nat (n - 32) else c.

Fixpoint upper (s : string) : string :=
  match s with
  | EmptyString => EmptyString
  | String c s' => String (ascii_upper c) (upper s')
  end.

(** ** The [tasks] table *)

(** The range of an SQLite INTEGER. *)
Definition sqlite_min_int : Z := -9223372036854775808.
Definition sqlite_max_int : Z := 9223372036854775807.

Definition in_int64 (n : Z) : bool :=
  ((sqlite_min_int <=? n) && (n <=? sqlite_max_int))%bool.

Record task : Type := mkTask {
  task_str_id : string;
  description : string;
  estimated_time_minutes : Z;
  status : string;
  submitted_at : Z
}.

Definition table : Type := list task.

Definition set_status (s : string) (t : task) : task :=
  mkTask (task_str_id t) (description t) (estimated_time_minutes t) s
         (submitted_at t).

Definition has_id (id : string) (t : task) : bool :=
  String.eqb (task_str_id t) id.

Definition is_pending (t : task) : bool :=
  String.eqb (status t) "pending".

(** [SELECT * FROM tasks WHERE task_str_id = ?] followed by [fetchone()]. *)
Definition select_by_id (id : string) (db : table) : option task :=
  find (has_id id) db.

(** [INSERT INTO tasks (task_str_id, description, estimated_time_minutes,
    status) VALUES (?, ?, ?, 'pending')]: binding the parameters raises
    [OverflowError] when the estimate is outside the range of an INTEGER,
    before the statement runs; then the primary key raises
    [sqlite3.IntegrityError] when the id is in use; [submitted_at] takes its
    default, the clock. *)
Inductive insert_result : Type :=
| Inserted (db : table)
| IntegrityError
| OverflowError.

Definition insert_pending (now : Z) (id desc : string) (minutes : Z)
    (db : table) : insert_result :=
  if negb (in_int64 minutes) then OverflowError
  else
    match select_by_id id db with
    | Some _ => IntegrityError
    | None => Inserted (db ++ [mkTask id desc minutes "pending" now])
    end.

(** [UPDATE tasks SET status = ? WHERE task_str_id = ?]. *)
Definition update_status (s id : string) (db : table) : table :=
  map (fun t => if has_id id t then set_status s t else t) db.

(** [SELECT * FROM tasks WHERE status = 'pending'], in rowid order. *)
Definition select_pending (db : table) : list task :=
  filter is_pending db.

(** *** [ORDER BY] *)

Inductive column : Type := ColEstimatedTimeMinutes | ColSubmittedAt.

Inductive direction : Type := Asc | Desc.

Definition column_value (c : column) (t : task) : Z :=
  match c with
  | ColEstimatedTimeMinutes => estimated_time_minutes t
  | ColSubmittedAt => submitted_at t
  end.

Definition term_cmp (term : column * direction) (a b : task) : comparison :=
  match snd term with
  | Asc => Z.compare (column_value (fst term) a) (column_value (fst term) b)
  | Desc => Z.compare (column_value (fst term) b) (column_value (fst term) a)
  end.

(** The terms of an [ORDER BY] clause compare two rows lexicographically. *)
Fixpoint order_cmp (terms : list (column * direction)) (a b : task)
    : comparison :=
  match terms with
  | [] => Eq
  | term :: terms' =>
      match term_cmp term a b with
      | Eq => order_cmp terms' a b
      | r => r
      end
  end.

Definition row_le (terms : list (column * direction)) (a b : task) : bool :=
  match order_cmp terms a b with
  | Gt => false
  | _ => true
  end.

(** Rows that the clause does not tell apart stay in scan order. *)
Fixpoint insert_row (terms : list (column * direction)) (x : task)
    (l : list task) : list task :=
  match l with
  | [] => [x]
  | y :: l' =>
      if row_le terms x y then x :: l else y :: insert_row terms x l'
  end.

Fixpoint order_by (terms : list (column * direction)) (l : list task)
    : list task :=
  match l with
  | [] => []
  | x :: l' => insert_row terms x (order_by terms l')
  end.

(** [LIMIT n]: a negative [n] puts no bound on the number of rows; an [n]
    outside the range of an INTEGER makes the statement fail ([None]) with
    'datatype mismatch'. *)
Definition sql_limit (n : Z) (l : list task) : option (list task) :=
  if in_int64 n
  then Some (if n <? 0 then l else firstn (Z.to_nat n) l)
  else None.

(** ** Responses *)

Inductive body : Type :=
| ErrorBody (msg : string)
| TaskBody (t : task)
| TaskListBody (l : list task).

Definition response : Type := (body * Z)%type.

Definition error (msg : string) (code : Z) : response := (ErrorBody msg, code).

(** ** POST /tasks *)

(** The decoded body of a creation request: the three fields the handler
    reads, each absent or present. *)
Record create_body : Type := mkCreate {
  cb_task_str_id : option string;
  cb_description : option string;
  cb_estimated_time_minutes : option pyval
}.

Definition missing_field (field : string) : response :=
  error ("Missing required field: " ++ field) 400.

(** [data] is [None] when [request.get_json()] is falsy (no object, or an
    empty one). *)
Definition create_task (now : Z) (data : option create_body) (db : table)
    : table * response :=
  match data with
  | None => (db, error "No JSON data provided" 400)
  | Some d =>
  match cb_task_str_id d with
  | None => (db, missing_field "task_str_id")
  | Some id =>
  match cb_description d with
  | None => (db, missing_field "description")
  | Some desc =>
  match cb_estimated_time_minutes d with
  | None => (db, missing_field "estimated_time_minutes")
  | Some v =>
  match as_int v with
  | None => (db, error "estimated_time_minutes must be greater than 0" 400)
  | Some minutes =>
  if minutes <=? 0
  then (db, error "estimated_time_minutes must be greater than 0" 400)
  else
    match insert_pending now id desc minutes db with
    | OverflowError =>
        (* not an IntegrityError: the outer handler reports it *)
        (db, error "Python int too large to convert to SQLite INTEGER" 500)
    | IntegrityError => (db, error "task_str_id must be unique" 400)
    | Inserted db' =>
        match select_by_id id db' with
        | Some t => (db', (TaskBody t, 201))
        | None =>
            (* dict_from_row(None) raises; the outer handler reports it *)
            (db', error "'NoneType' object has no attribute 'keys'" 500)
        end
    end
  end end end end end.

(** ** GET /tasks/<task_str_id> *)

Definition get_task (id : string) (db : table) : table * response :=
  match select_by_id id db with
  | Some t => (db, (TaskBody t, 200))
  | None => (db, error "Task not found" 404)
  end.

(** ** PUT /tasks/<task_str_id>/status *)

(** The decoded body of a status request: [new_status], absent or present. *)
Record status_body : Type := mkStatus {
  sb_new_status : option pyval
}.

Definition allowed_statuses : list string :=
  ["pending"; "processing"; "completed"].

Definition invalid_transitions : list (string * string) :=
  [("completed", "pending");
   ("completed", "processing");
   ("processing", "pending")].

(** [(current_status, new_status) in invalid_transitions]. *)
Definition pair_in (p : string * string) (l : list (string * string)) : bool :=
  existsb (fun q => String.eqb (fst p) (fst q) && String.eqb (snd p) (snd q))%bool l.

Definition invalid_status_msg : string :=
  "Invalid status. Allowed values: " ++ repr_list allowed_statuses.

Definition invalid_transition_msg (current new : string) : string :=
  "Invalid status transition from '" ++ current ++ "' to '" ++ new ++ "'".

Definition update_task_status (id : string) (data : option status_body)
    (db : table) : table * response :=
  match data with
  | None => (db, missing_field "new_status")
  | Some d =>
  match sb_new_status d with
  | None => (db, missing_field "new_status")
  | Some v =>
  if negb (py_in v allowed_statuses)
  then (db, error invalid_status_msg 400)
  else
  match v with
  | PyStr new_status =>
      match select_by_id id db with
      | None => (db, error "Task not found" 404)
      | Some current_task =>
          let current_status := status current_task in
          if pair_in (current_status, new_status) invalid_transitions
          then (db, error (invalid_transition_msg current_status new_status) 400)
          else
            let db' := update_status new_status id db in
            match select_by_id id db' with
            | Some updated_task => (db', (TaskBody updated_task, 200))
            | None =>
                (db', error "'NoneType' object has no attribute 'keys'" 500)
            end
      end
  | _ => (db, error invalid_status_msg 400)
  end
  end end.

(** ** GET /tasks/next-to-process *)

(** [ORDER BY estimated_time_minutes ASC, submitted_at ASC LIMIT 1]. *)
Definition next_order : list (column * direction) :=
  [(ColEstimatedTimeMinutes, Asc); (ColSubmittedAt, Asc)].

Definition get_next_task_to_process (db : table) : table * response :=
  match sql_limit 1 (order_by next_order (select_pending db)) with
  | Some (t :: _) => (db, (TaskBody t, 200))
  | Some [] => (db, error "No pending tasks found" 404)
  | None => (db, error "datatype mismatch" 500)
  end.

(** ** GET /tasks/pending *)

(** The query string: [limit] is read with [type=int], so it is absent when
    the parameter is missing or is not an integer. *)
Record pending_args : Type := mkArgs {
  arg_sort_by : option string;
  arg_order : option string;
  arg_limit : option Z
}.

(** The column a validated [sort_by] names and the direction a validated,
    upper-cased [order] names in the text of the query. *)
Definition column_of (sort_by : string) : column :=
  if String.eqb sort_by "submitted_at" then ColSubmittedAt
  else ColEstimatedTimeMinutes.

Definition direction_of (order : string) : direction :=
  if String.eqb order "DESC" then Desc else Asc.

(** [if limit:] holds for an integer other than 0. *)
Definition truthy_limit (limit : option Z) : option Z :=
  match limit with
  | Some n => if n =? 0 then None else Some n
  | None => None
  end.

Definition list_pending_tasks (args : pending_args) (db : table)
    : table * response :=
  let sort_by :=
    match arg_sort_by args with
    | Some s => s
    | None => "estimated_time_minutes"
    end in
  let order :=
    match arg_order args with
    | Some s => s
    | None => "asc"
    end in
  let limit := arg_limit args in
  let sort_by :=
    if String.eqb sort_by "time" then "estimated_time_minutes" else sort_by in
  if negb (str_in sort_by ["estimated_time_minutes"; "submitted_at"])
  then (db, error "Invalid sort_by parameter. Use 'time' or 'submitted_at'" 400)
  else
  if negb (str_in order ["asc"; "desc"])
  then (db, error "Invalid order parameter. Use 'asc' or 'desc'" 400)
  else
    let rows :=
      order_by [(column_of sort_by, direction_of (upper order))]
               (select_pending db) in
    match truthy_limit limit with
    | Some n =>
        match sql_limit n rows with
        | Some tasks => (db, (TaskListBody tasks, 200))
        | None => (db, error "datatype mismatch" 500)
        end
    | None => (db, (TaskListBody rows, 200))
    end.

(** ** GET /tasks *)

(** [SELECT * FROM tasks ORDER BY submitted_at DESC]. *)
Definition list_all_tasks (db : table) : table * response :=
  (db, (TaskListBody (order_by [(ColSubmittedAt, Desc)] db), 200)).

(** ** DELETE /tasks/<task_str_id> *)

(** [DELETE FROM tasks WHERE task_str_id = ?]: the table without the rows
    under the id, and [cursor.rowcount], the number of rows removed. *)
Definition delete_by_id (id : string) (db : table) : table * Z :=
  (filter (fun t => negb (has_id id t)) db,
   Z.of_nat (List.length (filter (has_id id) db))).

(** The body of the answer: [{"error": msg}] or [{"message": msg}]. *)
Inductive delete_body : Type :=
| DeleteError (msg : string)
| DeleteMessage (msg : string).

(** The handler commits only when a row was removed. *)
Definition delete_task (id : string) (db : table)
    : table * (delete_body * Z) :=
  let (db', rowcount) := delete_by_id id db in
  if rowcount =? 0
  then (db, (DeleteError "Task not found", 404))
  else (db', (DeleteMessage "Task deleted successfully", 200)).

(** ** Vocabulary of the statements *)

(** The integer a term of [ORDER BY] sorts by: the column, negated when
    descending. *)
Definition term_key (term : column * direction) (t : task) : Z :=
  match snd term with
  | Asc => column_value (fst term) t
  | Desc => - column_value (fst term) t
  end.

Definition le_rows (terms : list (column * direction)) (a b : task) : Prop :=
  row_le terms a b = true.

(** Shortest first, then oldest. *)
Definition shortest_then_oldest (a b : task) : Prop :=
  estimated_time_minutes a < estimated_time_minutes b \/
  (estimated_time_minutes a = estimated_time_minutes b /\
   submitted_at a <= submitted_at b).

(** The primary key: no two rows under one id. *)
Definition unique_ids (db : table) : Prop :=
  NoDup (map task_str_id db).

(** The table after a sequence of status requests on one task. *)
Fixpoint run_status_updates (id : string) (reqs : list (option status_body))
    (db : table) : table :=
  match reqs with
  | [] => db
  | r :: reqs' =>
      run_status_updates id reqs' (fst (update_task_status id r db))
  end.

(** A list in the order a validated [order] asks for, on the values of [f]. *)
Definition sorted_on (f : task -> Z) (order : string) (l : list task) : Prop :=
  if String.eqb order "desc"
  then StronglySorted (fun a b => f b <= f a) l
  else StronglySorted (fun a b => f a <= f b) l.

(** The column a request sorts by, [time] included. *)
Definition sort_field (sort_by : string) (t : task) : Z :=
  if String.eqb sort_by "submitted_at" then submitted_at t
  else estimated_time_minutes t.

(** An estimate [create_task] accepts: an [int] above 0. *)
Definition positive_int (v : pyval) : Prop :=
  exists m, as_int v = Some m /\ 0 < m.

(** A row without its status: the columns no handler rewrites. *)
Definition erase_status (t : task) : task := set_status "" t.

(** * Properties *)

(** ** Lookups in the table *)

Lemma select_by_id_app_fresh (id : string) (db : table) (t : task) :
  select_by_id id db = None ->
  has_id id t = true ->
  select_by_id id (db ++ [t]) = Some t.
Proof.
  unfold select_by_id. intros Hnone Hid.
  induction db as [|r db IH]; simpl in *.
  - now rewrite Hid.
  - destruct (has_id id r); [discriminate | auto].
Qed.

Lemma has_id_refl (id desc st : string) (m now : Z) :
  has_id id (mkTask id desc m st now) = true.
Proof. unfold has_id; simpl. apply String.eqb_refl. Qed.

Lemma in_int64_iff (n : Z) :
  in_int64 n = true <-> sqlite_min_int <= n <= sqlite_max_int.
Proof.
  unfold in_int64. rewrite andb_true_iff, !Z.leb_le. reflexivity.
Qed.

Lemma in_int64_positive (m : Z) :
  0 < m -> m <= sqlite_max_int -> in_int64 m = true.
Proof.
  intros Hpos Hmax. apply in_int64_iff. unfold sqlite_min_int. lia.
Qed.







(** ** [ORDER BY]: a sorted permutation of its input *)

Section OrderBy.

Variable terms : list (column * direction).

Lemma term_cmp_key (term : column * direction) (a b : task) :
  term_cmp term a b = Z.compare (term_key term a) (term_key term b).
Proof.
  unfold term_cmp, term_key. destruct (snd term); [reflexivity|].
  now rewrite Z.compare_opp.
Qed.

Lemma order_cmp_antisym (ts : list (column * direction)) (a b : task) :
  order_cmp ts b a = CompOpp (order_cmp ts a b).
Proof.
  induction ts as [|tm ts IH]; simpl; [reflexivity|].
  rewrite !term_cmp_key, (Z.compare_antisym (term_key tm a)).
  destruct (term_key tm a ?= term_key tm b); simpl; auto.
Qed.

Lemma order_cmp_trans (ts : list (column * direction)) (a b c : task) :
  order_cmp ts a b <> Gt -> order_cmp ts b c <> Gt -> order_cmp ts a c <> Gt.
Proof.
  induction ts as [|tm ts IH]; simpl; [congruence|].
  rewrite !term_cmp_key.
  destruct (Z.compare_spec (term_key tm a) (term_key tm b)),
           (Z.compare_spec (term_key tm b) (term_key tm c)),
           (Z.compare_spec (term_key tm a) (term_key tm c));
    try lia; try congruence; auto.
Qed.

Lemma row_le_iff (ts : list (column * direction)) (a b : task) :
  row_le ts a b = true <-> order_cmp ts a b <> Gt.
Proof.
  unfold row_le. destruct (order_cmp ts a b); split; congruence.
Qed.

Lemma le_rows_total (a b : task) :
  row_le terms a b = false -> le_rows terms b a.
Proof.
  unfold le_rows, row_le. rewrite (order_cmp_antisym terms a b).
  destruct (order_cmp terms a b); simpl; congruence.
Qed.

Lemma le_rows_trans (a b c : task) :
  le_rows terms a b -> le_rows terms b c -> le_rows terms a c.
Proof.
  unfold le_rows. rewrite !row_le_iff. apply order_cmp_trans.
Qed.

Lemma insert_row_perm (x : task) (l : list task) :
  Permutation (insert_row terms x l) (x :: l).
Proof.
  induction l as [|y l IH]; simpl; [reflexivity|].
  destruct (row_le terms x y); [reflexivity|].
  rewrite IH. apply perm_swap.
Qed.

Lemma order_by_perm (l : list task) :
  Permutation (order_by terms l) l.
Proof.
  induction l as [|x l IH]; simpl; [reflexivity|].
  rewrite insert_row_perm. now apply perm_skip.
Qed.

Lemma insert_row_sorted (x : task) (l : list task) :
  StronglySorted (le_rows terms) l ->
  StronglySorted (le_rows terms) (insert_row terms x l).
Proof.
  induction 1 as [|y l Hs IH Hall]; simpl.
  - constructor; constructor.
  - destruct (row_le terms x y) eqn:Hxy.
    + constructor; [now constructor|].
      constructor; [exact Hxy|].
      eapply Forall_impl; [|exact Hall].
      intros z Hz. now apply le_rows_trans with y.
    + constructor; [exact IH|].
      apply (Permutation_Forall (Permutation_sym (insert_row_perm x l))).
      constructor; [now apply le_rows_total | exact Hall].
Qed.

Lemma order_by_sorted (l : list task) :
  StronglySorted (le_rows terms) (order_by terms l).
Proof.
  induction l as [|x l IH]; simpl; [constructor|].
  now apply insert_row_sorted.
Qed.

(** The first row of the ordered result is below every row of the input. *)
Lemma order_by_head_min (l : list task) (t : task) (rest : list task) :
  order_by terms l = t :: rest ->
  In t l /\ forall t', In t' l -> le_rows terms t t'.
Proof.
  intros Heq.
  pose proof (order_by_perm l) as Hp.
  pose proof (order_by_sorted l) as Hs.
  rewrite Heq in Hp, Hs. split.
  - apply (Permutation_in _ Hp). now left.
  - intros t' Hin.
    apply (Permutation_in _ (Permutation_sym Hp)) in Hin.
    inversion Hs as [|? ? _ Hall]; subst.
    destruct Hin as [<-|Hin].
    + unfold le_rows. apply row_le_iff.
      pose proof (order_cmp_antisym terms t t) as Ha.
      destruct (order_cmp terms t t); simpl in Ha; congruence.
    + rewrite Forall_forall in Hall. now apply Hall.
Qed.

End OrderBy.

Lemma StronglySorted_impl {A : Type} (R S : A -> A -> Prop) (l : list A) :
  (forall a b, R a b -> S a b) -> StronglySorted R l -> StronglySorted S l.
Proof.
  intros HRS. induction 1 as [|x l Hs IH Hall]; constructor; auto.
  eapply Forall_impl; [|exact Hall]. intros; now apply HRS.
Qed.

Lemma row_le_asc (c : column) (a b : task) :
  row_le [(c, Asc)] a b = true <-> column_value c a <= column_value c b.
Proof.
  unfold row_le; simpl. unfold term_cmp; simpl.
  destruct (Z.compare_spec (column_value c a) (column_value c b));
    split; intros; try lia; congruence.
Qed.

Lemma row_le_desc (c : column) (a b : task) :
  row_le [(c, Desc)] a b = true <-> column_value c b <= column_value c a.
Proof.
  unfold row_le; simpl. unfold term_cmp; simpl.
  destruct (Z.compare_spec (column_value c b) (column_value c a));
    split; intros; try lia; congruence.
Qed.

Lemma row_le_next_order (a b : task) :
  row_le next_order a b = true <-> shortest_then_oldest a b.
Proof.
  unfold row_le, next_order, shortest_then_oldest; simpl.
  unfold term_cmp; simpl.
  destruct (Z.compare_spec (estimated_time_minutes a)
                           (estimated_time_minutes b));
    destruct (Z.compare_spec (submitted_at a) (submitted_at b));
    split; intros; try lia; try congruence.
Qed.

Lemma select_pending_In (db : table) (t : task) :
  In t (select_pending db) <-> In t db /\ status t = "pending".
Proof.
  unfold select_pending, is_pending.
  rewrite filter_In, String.eqb_eq. reflexivity.
Qed.

(** ** The selection query *)

(** A table of the shape of the documented scenario: A (10 min) submitted
    first, then B and C (5 min each), B before C. *)
Example next_prefers_shortest_then_oldest :
  let A := mkTask "A" "a" 10 "pending" 1 in
  let B := mkTask "B" "b" 5 "pending" 2 in
  let C := mkTask "C" "c" 5 "pending" 3 in
  get_next_task_to_process [A; B; C] = ([A; B; C], (TaskBody B, 200)).
Proof. reflexivity. Qed.

(** C2: when some row is pending, [get_next_task_to_process] answers 200
    with a pending row of the table that has the smallest
    [estimated_time_minutes] among the pending rows and, among those of that
    estimate, the earliest [submitted_at]; when no row is pending it answers
    404 ['No pending tasks found']. *)
Theorem get_next_task_to_process_spec (db : table) :
  ((exists p, In p db /\ status p = "pending") ->
   exists t,
     get_next_task_to_process db = (db, (TaskBody t, 200)) /\
     In t db /\ status t = "pending" /\
     forall t', In t' db -> status t' = "pending" ->
                shortest_then_oldest t t') /\
  ((forall p, In p db -> status p <> "pending") ->
   get_next_task_to_process db = (db, error "No pending tasks found" 404)).
Proof.
  unfold get_next_task_to_process, sql_limit; simpl.
  destruct (order_by next_order (select_pending db)) as [|t rest] eqn:Hord.
  - assert (Hnil : select_pending db = []).
    { apply Permutation_nil. rewrite <- Hord. apply order_by_perm. }
    split; [|reflexivity].
    intros [p Hp]. apply select_pending_In in Hp.
    rewrite Hnil in Hp. destruct Hp.
  - destruct (order_by_head_min _ _ _ _ Hord) as [Hin Hmin].
    apply select_pending_In in Hin. destruct Hin as [Hin Hst].
    split.
    + intros _. exists t. repeat split; auto.
      intros t' Hin' Hst'. apply row_le_next_order.
      apply Hmin. apply select_pending_In. now split.
    + intros Hnone. now destruct (Hnone t Hin).
Qed.

Lemma get_next_task_to_process_spec_witness :
  let db := [mkTask "A" "a" 10 "pending" 1;
             mkTask "D" "d" 1 "completed" 1;
             mkTask "B" "b" 5 "pending" 2;
             mkTask "C" "c" 5 "pending" 3] in
  exists t,
    get_next_task_to_process db = (db, (TaskBody t, 200)) /\
    In t db /\ status t = "pending" /\
    forall t', In t' db -> status t' = "pending" ->
               shortest_then_oldest t t'.
Proof.
  intros db.
  apply (proj1 (get_next_task_to_process_spec db)).
  exists (mkTask "A" "a" 10 "pending" 1). split; [now left | reflexivity].
Defined.

(** C9: [get_next_task_to_process] leaves the table as it is, so every
    lookup answers after the call what it answered before; the row it
    returns is still stored with status ['pending']. *)
Theorem get_next_task_to_process_read_only (db : table) :
  fst (get_next_task_to_process db) = db /\
  (forall id, get_task id (fst (get_next_task_to_process db)) =
              get_task id db) /\
  (forall t code,
     snd (get_next_task_to_process db) = (TaskBody t, code) ->
     In t (fst (get_next_task_to_process db)) /\ status t = "pending").
Proof.
  assert (Hfst : fst (get_next_task_to_process db) = db).
  { unfold get_next_task_to_process.
    now destruct (sql_limit 1 (order_by next_order (select_pending db)))
      as [[|? ?]|]. }
  split; [exact Hfst|]. rewrite Hfst. split; [reflexivity|].
  intros t code.
  unfold get_next_task_to_process, sql_limit; simpl.
  destruct (order_by next_order (select_pending db)) as [|t0 rest] eqn:Hord;
    simpl; [discriminate|].
  intros Heq. injection Heq as -> _.
  destruct (order_by_head_min _ _ _ _ Hord) as [Hin _].
  now apply select_pending_In in Hin.
Qed.

(** ** The status update *)

Lemma str_in_In (s : string) (l : list string) :
  str_in s l = true <-> In s l.
Proof.
  unfold str_in. rewrite existsb_exists. split.
  - intros [x [Hin Heq]]. apply String.eqb_eq in Heq. now subst.
  - intros Hin. exists s. split; [exact Hin | apply String.eqb_refl].
Qed.

Lemma str_not_in (s : string) (l : list string) :
  ~ In s l -> str_in s l = false.
Proof.
  intros Hn. destruct (str_in s l) eqn:H; [|reflexivity].
  apply str_in_In in H. now destruct Hn.
Qed.

Lemma pair_in_In (p : string * string) (l : list (string * string)) :
  pair_in p l = true <-> In p l.
Proof.
  unfold pair_in. rewrite existsb_exists. split.
  - intros [[a b] [Hin Heq]]. apply andb_true_iff in Heq.
    destruct Heq as [Ha Hb]. apply String.eqb_eq in Ha, Hb.
    destruct p; simpl in *. now subst.
  - intros Hin. exists p. split; [exact Hin|].
    now rewrite !String.eqb_refl.
Qed.

Lemma select_by_id_has_id (id : string) (db : table) (t : task) :
  select_by_id id db = Some t -> In t db /\ task_str_id t = id.
Proof.
  unfold select_by_id. intros H. apply find_some in H.
  destruct H as [Hin Hid]. now apply String.eqb_eq in Hid.
Qed.

(** The row under [id] after the [UPDATE] is the row before it with the new
    status; the rows under other ids are as before. *)
Lemma select_by_id_update_status (s id : string) (db : table) :
  select_by_id id (update_status s id db) =
  option_map (set_status s) (select_by_id id db).
Proof.
  unfold select_by_id, update_status.
  induction db as [|r db IH]; simpl; [reflexivity|].
  destruct (has_id id r) eqn:Hr; simpl.
  - unfold has_id in *; simpl. now rewrite Hr.
  - now rewrite Hr.
Qed.

Lemma select_by_id_update_status_other (s id id' : string) (db : table) :
  id' <> id ->
  select_by_id id' (update_status s id db) = select_by_id id' db.
Proof.
  intros Hne. unfold select_by_id, update_status.
  induction db as [|r db IH]; simpl; [reflexivity|].
  destruct (has_id id r) eqn:Hr; simpl.
  - unfold has_id in *; simpl. apply String.eqb_eq in Hr.
    destruct (String.eqb_spec (task_str_id r) id'); [congruence | exact IH].
  - destruct (has_id id' r); [reflexivity | exact IH].
Qed.

Lemma update_status_ids (s id : string) (db : table) :
  map task_str_id (update_status s id db) = map task_str_id db.
Proof.
  unfold update_status. rewrite map_map. apply map_ext.
  intros t. now destruct (has_id id t).
Qed.

Lemma invalid_transition_allowed (current new : string) :
  In (current, new) invalid_transitions -> In new allowed_statuses.
Proof.
  unfold invalid_transitions, allowed_statuses; simpl.
  intros [H|[H|[H|[]]]]; injection H as _ <-; auto.
Qed.

(** A request for one of the three statuses on a stored task is decided by
    the table of forbidden pairs alone. *)
Lemma update_task_status_stored (id new : string) (db : table) (t : task) :
  select_by_id id db = Some t ->
  In new allowed_statuses ->
  update_task_status id (Some (mkStatus (Some (PyStr new)))) db =
    if pair_in (status t, new) invalid_transitions
    then (db, error (invalid_transition_msg (status t) new) 400)
    else (update_status new id db, (TaskBody (set_status new t), 200)).
Proof.
  intros Hsel Hall. unfold update_task_status.
  cbn [sb_new_status py_in].
  apply str_in_In in Hall. rewrite Hall. cbn [negb]. rewrite Hsel.
  cbv zeta.
  destruct (pair_in (status t, new) invalid_transitions); [reflexivity|].
  now rewrite select_by_id_update_status, Hsel.
Qed.

(** C3: on a stored task and a requested status among ['pending'],
    ['processing'] and ['completed'], [update_task_status] answers 400
    ['Invalid status transition from ... to ...'] and leaves the table as
    it is when the pair (current, requested) is one of
    (completed, pending), (completed, processing), (processing, pending);
    for every other pair, the same-status pairs included, it answers 200
    with the row of the task in which the status is the requested one and
    the four other columns are as before; that row is what the table then
    stores under the id and what [get_task] returns, the table has the ids
    it had, and the rows under other ids are as before.  So the request
    fails exactly on the three pairs. *)
Theorem update_task_status_transitions (id new : string) (db : table)
    (t : task) :
  select_by_id id db = Some t ->
  In new ["pending"; "processing"; "completed"] ->
  let forbidden := [("completed", "pending"); ("completed", "processing");
                    ("processing", "pending")] in
  let r := update_task_status id (Some (mkStatus (Some (PyStr new)))) db in
  let t' := mkTask (task_str_id t) (description t)
                   (estimated_time_minutes t) new (submitted_at t) in
  (In (status t, new) forbidden ->
   r = (db, error ("Invalid status transition from '" ++ status t ++
                   "' to '" ++ new ++ "'") 400)) /\
  (~ In (status t, new) forbidden ->
   snd r = (TaskBody t', 200) /\
   status t' = new /\
   select_by_id id (fst r) = Some t' /\
   get_task id (fst r) = (fst r, (TaskBody t', 200)) /\
   map task_str_id (fst r) = map task_str_id db /\
   forall id', id' <> id -> select_by_id id' (fst r) = select_by_id id' db) /\
  ((exists msg code, snd r = (ErrorBody msg, code)) <->
   In (status t, new) forbidden).
Proof.
  intros Hsel Hall forbidden r t'. subst r forbidden.
  change [("completed", "pending"); ("completed", "processing");
          ("processing", "pending")] with invalid_transitions.
  rewrite (update_task_status_stored id new db t Hsel Hall).
  destruct (pair_in (status t, new) invalid_transitions) eqn:Hp.
  - apply pair_in_In in Hp. split; [reflexivity|].
    split; [intros Hn; now destruct Hn|].
    split; [intros _; exact Hp|]. intros _. now eexists; eexists.
  - assert (Hn : ~ In (status t, new) invalid_transitions).
    { intros Hin. apply pair_in_In in Hin. congruence. }
    assert (Hsel' : select_by_id id (update_status new id db) = Some t').
    { now rewrite select_by_id_update_status, Hsel. }
    split; [intros Hin; now destruct Hn|].
    split.
    + intros _. cbn [fst snd]. split; [reflexivity|].
      split; [reflexivity|]. split; [exact Hsel'|].
      split; [unfold get_task; now rewrite Hsel'|].
      split; [apply update_status_ids|].
      intros id' Hne. now apply select_by_id_update_status_other.
    + split; [|intros Hin; now destruct Hn].
      intros [msg [code Heq]]. discriminate Heq.
Qed.

Lemma update_task_status_transitions_witness :
  let t := mkTask "T1" "Process data" 30 "pending" 7 in
  let t' := mkTask "T1" "Process data" 30 "processing" 7 in
  let db := [mkTask "T0" "Backup" 5 "completed" 6; t] in
  let forbidden := [("completed", "pending"); ("completed", "processing");
                    ("processing", "pending")] in
  let r := update_task_status "T1"
             (Some (mkStatus (Some (PyStr "processing")))) db in
  (In ("pending", "processing") forbidden ->
   r = (db, error ("Invalid status transition from '" ++ "pending" ++
                   "' to '" ++ "processing" ++ "'") 400)) /\
  (~ In ("pending", "processing") forbidden ->
   snd r = (TaskBody t', 200) /\
   status t' = "processing" /\
   select_by_id "T1" (fst r) = Some t' /\
   get_task "T1" (fst r) = (fst r, (TaskBody t', 200)) /\
   map task_str_id (fst r) = map task_str_id db /\
   forall id', id' <> "T1" ->
               select_by_id id' (fst r) = select_by_id id' db) /\
  ((exists msg code, snd r = (ErrorBody msg, code)) <->
   In ("pending", "processing") forbidden).
Proof.
  intros t t' db.
  apply (update_task_status_transitions "T1" "processing" db t).
  - reflexivity.
  - simpl; auto.
Defined.

(** The nine pairs of the three statuses, run on a one-row table: the three
    forbidden pairs answer 400, the six others 200. *)
Example update_task_status_nine_pairs :
  let code_of current new :=
    snd (snd (update_task_status "T"
                (Some (mkStatus (Some (PyStr new))))
                [mkTask "T" "d" 1 current 0])) in
  map (fun current => map (code_of current) allowed_statuses)
      allowed_statuses =
  [[200; 200; 200]; [400; 200; 200]; [400; 400; 200]].
Proof. reflexivity. Qed.

(** C4: at any point of a sequence of status requests on a task, a request
    for a forbidden pair (completed to pending, completed to processing,
    processing to pending) answers 400 and leaves the table as the sequence
    left it; the stored row of the task, its status with it, is what it was
    before the request. *)
Theorem update_task_status_rejected_unchanged (id : string)
    (reqs : list (option status_body)) (db : table) (new : string)
    (t : task) :
  let db1 := run_status_updates id reqs db in
  select_by_id id db1 = Some t ->
  In (status t, new) invalid_transitions ->
  let r := update_task_status id (Some (mkStatus (Some (PyStr new)))) db1 in
  r = (db1, error (invalid_transition_msg (status t) new) 400) /\
  select_by_id id (fst r) = Some t /\
  option_map status (select_by_id id (fst r)) = Some (status t).
Proof.
  intros db1 Hsel Hin r. subst r.
  rewrite (update_task_status_stored id new db1 t Hsel
             (invalid_transition_allowed _ _ Hin)).
  apply pair_in_In in Hin. rewrite Hin. simpl.
  split; [reflexivity|]. now rewrite Hsel.
Qed.

Lemma update_task_status_rejected_unchanged_witness :
  let db := [mkTask "T1" "Process data" 30 "pending" 7] in
  let reqs := [Some (mkStatus (Some (PyStr "processing")));
               Some (mkStatus (Some (PyStr "completed")))] in
  let db1 := run_status_updates "T1" reqs db in
  let t := mkTask "T1" "Process data" 30 "completed" 7 in
  let r := update_task_status "T1"
             (Some (mkStatus (Some (PyStr "pending")))) db1 in
  r = (db1, error (invalid_transition_msg (status t) "pending") 400) /\
  select_by_id "T1" (fst r) = Some t /\
  option_map status (select_by_id "T1" (fst r)) = Some (status t).
Proof.
  intros db reqs db1 t.
  apply (update_task_status_rejected_unchanged "T1" reqs db "pending" t).
  - reflexivity.
  - simpl; auto.
Defined.

(** C8, as stated, fails: with an id that is not stored and a requested
    status outside the three values, the handler answers 400 with the
    invalid-status message, not 404; the status check comes first. *)
Lemma update_task_status_absent_counterexample :
  select_by_id "T9" [] = None /\
  update_task_status "T9" (Some (mkStatus (Some (PyStr "done")))) [] =
    ([], error
           "Invalid status. Allowed values: ['pending', 'processing', 'completed']"
           400) /\
  update_task_status "T9" (Some (mkStatus (Some (PyStr "done")))) [] <>
    ([], error "Task not found" 404).
Proof. repeat split. discriminate. Qed.

(** A requested status outside the three values is refused before the table
    is read, whether the id is stored or not. *)
Lemma update_task_status_invalid_status (id : string) (v : pyval)
    (db : table) :
  py_in v allowed_statuses = false ->
  update_task_status id (Some (mkStatus (Some v))) db =
    (db, error invalid_status_msg 400).
Proof.
  intros Hv. unfold update_task_status. cbn [sb_new_status].
  now rewrite Hv.
Qed.

(** C8 (amended): for an id that is not stored and a requested status among
    ['pending'], ['processing'] and ['completed'], [update_task_status]
    answers 404 ['Task not found'] and leaves the table as it is; a
    requested status outside the three values (another string, or a value
    that is not a string) is answered 400 with the list of the allowed
    values, on this table and on any other, whether the id is stored or
    not, and leaves the table as it is. *)
Theorem update_task_status_absent (id : string) (db : table) :
  select_by_id id db = None ->
  (forall new,
     In new ["pending"; "processing"; "completed"] ->
     update_task_status id (Some (mkStatus (Some (PyStr new)))) db =
       (db, error "Task not found" 404)) /\
  (forall v (db' : table),
     (forall s, v = PyStr s ->
                ~ In s ["pending"; "processing"; "completed"]) ->
     update_task_status id (Some (mkStatus (Some v))) db' =
       (db', error
               "Invalid status. Allowed values: ['pending', 'processing', 'completed']"
               400)).
Proof.
  intros Hsel. split.
  - intros new Hall. unfold update_task_status.
    cbn [sb_new_status py_in].
    change (In new allowed_statuses) in Hall.
    apply str_in_In in Hall. rewrite Hall. cbn [negb]. now rewrite Hsel.
  - intros v db' Hv. apply update_task_status_invalid_status.
    destruct v; try reflexivity.
    cbn [py_in]. apply str_not_in. now apply Hv.
Qed.

Lemma update_task_status_absent_witness :
  let db := [mkTask "T1" "Process data" 30 "pending" 7] in
  (forall new,
     In new ["pending"; "processing"; "completed"] ->
     update_task_status "T9" (Some (mkStatus (Some (PyStr new)))) db =
       (db, error "Task not found" 404)) /\
  (forall v (db' : table),
     (forall s, v = PyStr s ->
                ~ In s ["pending"; "processing"; "completed"]) ->
     update_task_status "T9" (Some (mkStatus (Some v))) db' =
       (db', error
               "Invalid status. Allowed values: ['pending', 'processing', 'completed']"
               400)).
Proof.
  intros db. apply (update_task_status_absent "T9" db). reflexivity.
Defined.

(** ** Invariants of the lifecycle *)

(** One request leaves a completed task as it is, whatever the request. *)
Lemma update_task_status_completed_step (id : string)
    (r : option status_body) (db : table) (t : task) :
  select_by_id id db = Some t ->
  status t = "completed" ->
  select_by_id id (fst (update_task_status id r db)) = Some t.
Proof.
  intros Hsel Hst.
  destruct r as [[[v|]]|]; try exact Hsel.
  destruct (py_in v allowed_statuses) eqn:Hv.
  - destruct v as [| | | |new| |]; try discriminate Hv.
    cbn [py_in] in Hv. apply str_in_In in Hv.
    rewrite (update_task_status_stored id new db t Hsel Hv), Hst.
    destruct Hv as [<-|[<-|[<-|[]]]]; cbn [pair_in invalid_transitions
      existsb fst snd String.eqb Ascii.eqb Bool.eqb andb orb];
      try exact Hsel.
    cbn [fst]. rewrite select_by_id_update_status, Hsel. cbn [option_map].
    f_equal. destruct t; cbn in *. now subst.
  - now rewrite update_task_status_invalid_status.
Qed.

(** X9: completed is terminal: after any sequence of status requests on a
    task that is completed, whatever their bodies, the stored row of the
    task is the row it was. *)
Lemma run_status_updates_completed (id : string)
    (reqs : list (option status_body)) (db : table) (t : task) :
  select_by_id id db = Some t ->
  status t = "completed" ->
  select_by_id id (run_status_updates id reqs db) = Some t.
Proof.
  revert db. induction reqs as [|r reqs IH]; intros db Hsel Hst; simpl.
  - exact Hsel.
  - apply IH; [|exact Hst].
    now apply update_task_status_completed_step.
Qed.

(** The handlers keep the primary key. *)
Lemma select_by_id_none_not_in (id : string) (db : table) :
  select_by_id id db = None -> ~ In id (map task_str_id db).
Proof.
  unfold select_by_id. intros Hnone Hin.
  apply in_map_iff in Hin. destruct Hin as [t [Hid Hin]].
  apply (find_none _ _ Hnone) in Hin.
  unfold has_id in Hin. rewrite Hid, String.eqb_refl in Hin. discriminate.
Qed.

Lemma create_task_unique_ids (now : Z) (data : option create_body)
    (db : table) :
  unique_ids db -> unique_ids (fst (create_task now data db)).
Proof.
  intros Hu. unfold create_task.
  destruct data as [[[id|] [desc|] [v|]]|]; cbn; try exact Hu.
  destruct (as_int v) as [m|]; cbn; try exact Hu.
  destruct (m <=? 0); cbn; try exact Hu.
  unfold insert_pending.
  destruct (in_int64 m); cbn [negb fst]; try exact Hu.
  destruct (select_by_id id db) eqn:Hsel; cbn; try exact Hu.
  rewrite (select_by_id_app_fresh id db _ Hsel (has_id_refl _ _ _ _ _)).
  cbn. unfold unique_ids. rewrite map_app. cbn.
  apply NoDup_app_remove_l with (l := []).
  apply (Permutation_NoDup (l := id :: map task_str_id db)).
  - cbn. apply Permutation_cons_append.
  - constructor; [now apply select_by_id_none_not_in | exact Hu].
Qed.

Lemma update_task_status_unique_ids (id : string) (r : option status_body)
    (db : table) :
  unique_ids db -> unique_ids (fst (update_task_status id r db)).
Proof.
  intros Hu. unfold update_task_status.
  destruct r as [[[v|]]|]; cbn [sb_new_status fst]; try exact Hu.
  destruct (negb (py_in v allowed_statuses)); cbn [fst]; try exact Hu.
  destruct v; cbn [fst]; try exact Hu.
  destruct (select_by_id id db) as [t|]; cbn [fst]; try exact Hu.
  cbv zeta.
  destruct (pair_in _ _); cbn [fst]; try exact Hu.
  assert (Hu' : unique_ids (update_status s id db))
    by (unfold unique_ids; now rewrite update_status_ids).
  now destruct (select_by_id id (update_status s id db)).
Qed.

(** ** Creation: the refusals *)








(** ** The pending list *)

(** With accepted parameters the handler runs one query: the pending rows,
    ordered on one column, cut by [LIMIT] when [limit] is truthy. *)
Lemma list_pending_tasks_accepted (sort_by order : string) (limit : option Z)
    (db : table) :
  In sort_by ["estimated_time_minutes"; "submitted_at"; "time"] ->
  In order ["asc"; "desc"] ->
  list_pending_tasks (mkArgs (Some sort_by) (Some order) limit) db =
    let rows :=
      order_by
        [(if String.eqb sort_by "submitted_at" then ColSubmittedAt
          else ColEstimatedTimeMinutes,
          if String.eqb order "desc" then Desc else Asc)]
        (select_pending db) in
    match truthy_limit limit with
    | Some n =>
        match sql_limit n rows with
        | Some tasks => (db, (TaskListBody tasks, 200))
        | None => (db, error "datatype mismatch" 500)
        end
    | None => (db, (TaskListBody rows, 200))
    end.
Proof.
  intros [<-|[<-|[<-|[]]]] [<-|[<-|[]]]; reflexivity.
Qed.

Lemma in_int64_outside (n : Z) :
  n < sqlite_min_int \/ sqlite_max_int < n -> in_int64 n = false.
Proof.
  intros Hn. destruct (in_int64 n) eqn:H; [|reflexivity].
  apply in_int64_iff in H. lia.
Qed.

Lemma order_by_sorted_on (sort_by order : string) (l : list task) :
  sorted_on (sort_field sort_by) order
    (order_by
       [(if String.eqb sort_by "submitted_at" then ColSubmittedAt
         else ColEstimatedTimeMinutes,
         if String.eqb order "desc" then Desc else Asc)] l).
Proof.
  unfold sorted_on, sort_field.
  destruct (String.eqb sort_by "submitted_at"),
           (String.eqb order "desc");
    (eapply StronglySorted_impl; [|apply order_by_sorted]);
    intros a b Hab; unfold le_rows in Hab;
    first [now apply row_le_asc in Hab | now apply row_le_desc in Hab].
Qed.

(** The scenario of the documentation: three pending tasks of 5, 10 and 20
    minutes, [sort_by=time&order=desc&limit=1]. *)
Example list_pending_tasks_longest_first :
  let t5 := mkTask "a" "five" 5 "pending" 1 in
  let t10 := mkTask "b" "ten" 10 "pending" 2 in
  let t20 := mkTask "c" "twenty" 20 "pending" 3 in
  list_pending_tasks (mkArgs (Some "time") (Some "desc") (Some 1))
                     [t5; t10; t20] =
    ([t5; t10; t20], (TaskListBody [t20], 200)).
Proof. reflexivity. Qed.

(** Absent parameters take their defaults. *)
Lemma list_pending_tasks_defaults (limit : option Z) (db : table) :
  list_pending_tasks (mkArgs None None limit) db =
  list_pending_tasks
    (mkArgs (Some "estimated_time_minutes") (Some "asc") limit) db.
Proof. reflexivity. Qed.

(** C5, as stated, fails: a supplied limit of 0 does not cut the answer to
    at most 0 rows, the pending row is listed; and a supplied limit of 2^63
    gets no list at all, the query fails and the handler answers 500. *)
Lemma list_pending_tasks_spec_counterexample :
  let t := mkTask "a" "five" 5 "pending" 1 in
  list_pending_tasks (mkArgs (Some "time") (Some "asc") (Some 0)) [t] =
    ([t], (TaskListBody [t], 200)) /\
  (0 < List.length [t])%nat /\
  list_pending_tasks
    (mkArgs (Some "time") (Some "asc") (Some 9223372036854775808)) [t] =
    ([t], error "datatype mismatch" 500).
Proof. repeat split. apply Nat.lt_0_1. Qed.

(** C5 (amended): [list_pending_tasks] accepts [sort_by] among
    ['estimated_time_minutes'], ['submitted_at'] and ['time'] (which sorts by
    [estimated_time_minutes]) and [order] among ['asc'] and ['desc'].  Then
    there is an arrangement [all] of exactly the pending rows of the table,
    sorted on the chosen column in the chosen direction, such that the
    answer is 200 with [all] when no limit is given, 200 with the first [n]
    rows of [all], so at most [n] rows, for a limit [n] from 1 to 2^63 - 1,
    200 with [all] again for a limit from -2^63 to 0, and 500 for a limit
    outside the 64-bit range.  Any other [sort_by], and any other [order],
    is answered 400 with the message of the parameter, whatever the limit;
    the table is never changed. *)
Theorem list_pending_tasks_spec (sort_by order : string) (limit : option Z)
    (db : table) :
  let r := list_pending_tasks (mkArgs (Some sort_by) (Some order) limit) db in
  let sorts := ["estimated_time_minutes"; "submitted_at"; "time"] in
  let orders := ["asc"; "desc"] in
  let pending := filter (fun t => String.eqb (status t) "pending") db in
  (In sort_by sorts -> In order orders ->
   exists all,
     Permutation all pending /\
     (forall t, In t all <-> In t db /\ status t = "pending") /\
     sorted_on (sort_field sort_by) order all /\
     (limit = None -> r = (db, (TaskListBody all, 200))) /\
     (forall n, limit = Some n -> 1 <= n <= 9223372036854775807 ->
        r = (db, (TaskListBody (firstn (Z.to_nat n) all), 200)) /\
        (List.length (firstn (Z.to_nat n) all) <= Z.to_nat n)%nat) /\
     (forall n, limit = Some n -> -9223372036854775808 <= n <= 0 ->
        r = (db, (TaskListBody all, 200))) /\
     (forall n, limit = Some n ->
        n < -9223372036854775808 \/ 9223372036854775807 < n ->
        r = (db, error "datatype mismatch" 500))) /\
  (~ In sort_by sorts ->
   r = (db, error "Invalid sort_by parameter. Use 'time' or 'submitted_at'"
                  400)) /\
  (In sort_by sorts -> ~ In order orders ->
   r = (db, error "Invalid order parameter. Use 'asc' or 'desc'" 400)).
Proof.
  intros r sorts orders pending. subst r pending. split; [|split].
  - intros Hs Ho.
    rewrite (list_pending_tasks_accepted sort_by order limit db Hs Ho).
    cbv zeta.
    change (filter (fun t => String.eqb (status t) "pending") db)
      with (select_pending db).
    set (all := order_by _ (select_pending db)).
    assert (Hperm : Permutation all (select_pending db))
      by apply order_by_perm.
    exists all.
    split; [exact Hperm|]. split.
    { intros t. rewrite <- select_pending_In. split; intros Hin.
      - now apply (Permutation_in _ Hperm).
      - now apply (Permutation_in _ (Permutation_sym Hperm)). }
    split; [apply order_by_sorted_on|]. split; [|split; [|split]].
    + intros ->. reflexivity.
    + intros n -> Hn. unfold truthy_limit, sql_limit.
      destruct (Z.eqb_spec n 0) as [H0|_]; [lia|].
      rewrite (in_int64_positive n) by (unfold sqlite_max_int; lia).
      destruct (Z.ltb_spec n 0) as [Hlt|_]; [lia|].
      split; [reflexivity | apply firstn_le_length].
    + intros n -> Hn. unfold truthy_limit, sql_limit.
      destruct (Z.eqb_spec n 0) as [H0|Hne]; [reflexivity|].
      assert (Hin : in_int64 n = true)
        by (apply in_int64_iff; unfold sqlite_min_int, sqlite_max_int; lia).
      rewrite Hin.
      destruct (Z.ltb_spec n 0) as [_|Hge]; [reflexivity | lia].
    + intros n -> Hn. unfold truthy_limit, sql_limit.
      destruct (Z.eqb_spec n 0) as [H0|_]; [lia|].
      now rewrite (in_int64_outside n Hn).
  - intros Hs. unfold list_pending_tasks. cbn [arg_sort_by arg_order].
    assert (Hin : str_in (if String.eqb sort_by "time"
                          then "estimated_time_minutes" else sort_by)
                    ["estimated_time_minutes"; "submitted_at"] = false).
    { destruct (String.eqb_spec sort_by "time") as [->|Hne].
      - destruct Hs. simpl; auto.
      - apply str_not_in. intros [<-|[<-|[]]]; apply Hs; simpl; auto. }
    now rewrite Hin.
  - intros Hs Ho. unfold list_pending_tasks. cbn [arg_sort_by arg_order].
    assert (Hin : str_in (if String.eqb sort_by "time"
                          then "estimated_time_minutes" else sort_by)
                    ["estimated_time_minutes"; "submitted_at"] = true).
    { destruct Hs as [<-|[<-|[<-|[]]]]; reflexivity. }
    rewrite Hin. cbn [negb].
    now rewrite (str_not_in order ["asc"; "desc"] Ho).
Qed.

Lemma list_pending_tasks_spec_witness :
  let db := [mkTask "a" "five" 5 "pending" 1;
             mkTask "x" "done" 1 "completed" 1;
             mkTask "b" "ten" 10 "pending" 2;
             mkTask "c" "twenty" 20 "pending" 3] in
  let r := list_pending_tasks (mkArgs (Some "time") (Some "desc") (Some 2))
                              db in
  let pending := filter (fun t => String.eqb (status t) "pending") db in
  exists all,
    Permutation all pending /\
    (forall t, In t all <-> In t db /\ status t = "pending") /\
    sorted_on (sort_field "time") "desc" all /\
    (Some 2 = None -> r = (db, (TaskListBody all, 200))) /\
    (forall n, Some 2 = Some n -> 1 <= n <= 9223372036854775807 ->
       r = (db, (TaskListBody (firstn (Z.to_nat n) all), 200)) /\
       (List.length (firstn (Z.to_nat n) all) <= Z.to_nat n)%nat) /\
    (forall n, Some 2 = Some n -> -9223372036854775808 <= n <= 0 ->
       r = (db, (TaskListBody all, 200))) /\
    (forall n, Some 2 = Some n ->
       n < -9223372036854775808 \/ 9223372036854775807 < n ->
       r = (db, error "datatype mismatch" 500)).
Proof.
  intros db.
  apply (proj1 (list_pending_tasks_spec "time" "desc" (Some 2) db));
    simpl; auto.
Defined.

(** C10: a limit of 0 is not applied.  With accepted parameters and limit 0
    the handler answers 200 with every pending row of the table, each as
    often as it is stored, sorted on the chosen column in the chosen
    direction: the very answer it gives when no limit is supplied.  With
    any parameters, accepted or not, the answer for limit 0 is the answer
    without a limit. *)
Theorem list_pending_tasks_limit_zero (db : table) :
  (forall sort_by order,
     In sort_by ["estimated_time_minutes"; "submitted_at"; "time"] ->
     In order ["asc"; "desc"] ->
     exists rows,
       list_pending_tasks (mkArgs (Some sort_by) (Some order) (Some 0)) db =
         (db, (TaskListBody rows, 200)) /\
       list_pending_tasks (mkArgs (Some sort_by) (Some order) None) db =
         (db, (TaskListBody rows, 200)) /\
       Permutation rows
         (filter (fun t => String.eqb (status t) "pending") db) /\
       (forall t, In t rows <-> In t db /\ status t = "pending") /\
       sorted_on (sort_field sort_by) order rows) /\
  (forall sort_by order,
     list_pending_tasks (mkArgs sort_by order (Some 0)) db =
     list_pending_tasks (mkArgs sort_by order None) db).
Proof.
  split; [|reflexivity].
  intros sort_by order Hs Ho.
  rewrite !(list_pending_tasks_accepted sort_by order _ db Hs Ho).
  cbv zeta. cbn [truthy_limit Z.eqb].
  set (rows := order_by _ (select_pending db)).
  assert (Hperm : Permutation rows (select_pending db))
    by apply order_by_perm.
  exists rows. split; [reflexivity|]. split; [reflexivity|].
  split; [exact Hperm|]. split; [|apply order_by_sorted_on].
  intros t. rewrite <- select_pending_In. split; intros Hin.
  - now apply (Permutation_in _ Hperm).
  - now apply (Permutation_in _ (Permutation_sym Hperm)).
Qed.

(** Limit 0 over a table with two pending rows among three: both are
    listed, shortest first. *)
Example list_pending_tasks_limit_zero_lists_all :
  let a := mkTask "a" "ten" 10 "pending" 1 in
  let x := mkTask "x" "done" 1 "completed" 2 in
  let b := mkTask "b" "five" 5 "pending" 3 in
  list_pending_tasks (mkArgs (Some "time") (Some "asc") (Some 0)) [a; x; b] =
    ([a; x; b], (TaskListBody [b; a], 200)).
Proof. reflexivity. Qed.

(** * Further properties of the handlers *)

(** ** Deletion *)

Lemma filter_has_id_nil (id : string) (db : table) :
  select_by_id id db = None <-> filter (has_id id) db = [].
Proof.
  unfold select_by_id.
  induction db as [|r db IH]; simpl; [tauto|].
  destruct (has_id id r); [split; discriminate | exact IH].
Qed.


Lemma select_by_id_deleted (id : string) (db : table) :
  select_by_id id (filter (fun t => negb (has_id id t)) db) = None.
Proof.
  unfold select_by_id.
  induction db as [|r db IH]; simpl; [reflexivity|].
  destruct (has_id id r) eqn:Hr; simpl; [exact IH|].
  now rewrite Hr.
Qed.

Lemma select_by_id_deleted_other (id id' : string) (db : table) :
  id' <> id ->
  select_by_id id' (filter (fun t => negb (has_id id t)) db) =
  select_by_id id' db.
Proof.
  intros Hne. unfold select_by_id.
  induction db as [|r db IH]; simpl; [reflexivity|].
  destruct (has_id id r) eqn:Hr; simpl.
  - unfold has_id in *. apply String.eqb_eq in Hr.
    destruct (String.eqb_spec (task_str_id r) id'); [congruence | exact IH].
  - destruct (has_id id' r); [reflexivity | exact IH].
Qed.

Lemma delete_task_stored_eq (id : string) (db : table) (t : task) :
  select_by_id id db = Some t ->
  delete_task id db =
    (filter (fun r => negb (has_id id r)) db,
     (DeleteMessage "Task deleted successfully", 200)).
Proof.
  intros Hsel. unfold delete_task, delete_by_id.
  destruct (filter (has_id id) db) as [|r rest] eqn:Hf.
  - apply filter_has_id_nil in Hf. congruence.
  - cbn [List.length].
    destruct (Z.eqb_spec (Z.of_nat (S (List.length rest))) 0) as [H0|_];
      [lia | reflexivity].
Qed.

Lemma delete_task_absent_eq (id : string) (db : table) :
  select_by_id id db = None ->
  delete_task id db = (db, (DeleteError "Task not found", 404)).
Proof.
  intros Hsel. unfold delete_task, delete_by_id.
  apply filter_has_id_nil in Hsel. now rewrite Hsel.
Qed.

(** X1: deleting an id that no row carries answers 404 ['Task not found']
    and leaves the table as it is: every lookup answers what it answered
    before. *)
Theorem delete_task_absent (id : string) (db : table) :
  select_by_id id db = None ->
  delete_task id db = (db, (DeleteError "Task not found", 404)) /\
  forall id', get_task id' (fst (delete_task id db)) = get_task id' db.
Proof.
  intros Hsel. rewrite (delete_task_absent_eq id db Hsel).
  split; reflexivity.
Qed.

Lemma delete_task_absent_witness :
  let db := [mkTask "T1" "Process data" 30 "pending" 7] in
  delete_task "T9" db = (db, (DeleteError "Task not found", 404)) /\
  forall id', get_task id' (fst (delete_task "T9" db)) = get_task id' db.
Proof.
  apply (delete_task_absent "T9" [mkTask "T1" "Process data" 30 "pending" 7]).
  reflexivity.
Defined.

(** X2: deleting a stored id answers 200 ['Task deleted successfully'],
    whatever the status of the task; afterwards [get_task] on that id
    answers 404, and the lookup of every other id answers what it answered
    before. *)
Theorem delete_task_stored (id : string) (db : table) (t : task) :
  select_by_id id db = Some t ->
  let r := delete_task id db in
  snd r = (DeleteMessage "Task deleted successfully", 200) /\
  get_task id (fst r) = (fst r, error "Task not found" 404) /\
  forall id', id' <> id -> select_by_id id' (fst r) = select_by_id id' db.
Proof.
  intros Hsel r. subst r. rewrite (delete_task_stored_eq id db t Hsel).
  cbn [fst snd]. split; [reflexivity|]. split.
  - unfold get_task. now rewrite select_by_id_deleted.
  - intros id' Hne. now apply select_by_id_deleted_other.
Qed.

Lemma delete_task_stored_witness :
  let db := [mkTask "T1" "Process data" 30 "completed" 7;
             mkTask "T2" "Backup" 5 "pending" 8] in
  let r := delete_task "T1" db in
  snd r = (DeleteMessage "Task deleted successfully", 200) /\
  get_task "T1" (fst r) = (fst r, error "Task not found" 404) /\
  forall id', id' <> "T1" -> select_by_id id' (fst r) = select_by_id id' db.
Proof.
  intros db.
  apply (delete_task_stored "T1" db
           (mkTask "T1" "Process data" 30 "completed" 7)).
  reflexivity.
Defined.



(** ** The primary key *)

(** Removing rows keeps the primary key. *)
Lemma unique_ids_filter (keep : task -> bool) (db : table) :
  unique_ids db -> unique_ids (filter keep db).
Proof.
  unfold unique_ids. induction db as [|r db IH]; cbn [filter map]; [auto|].
  intros Hnd. apply NoDup_cons_iff in Hnd. destruct Hnd as [Hfresh Hnd].
  destruct (keep r); cbn [map]; [|now apply IH].
  apply NoDup_cons_iff. split; [|now apply IH].
  intros Hin. apply Hfresh.
  apply in_map_iff in Hin. destruct Hin as [x [Hx Hin]].
  apply filter_In in Hin. apply in_map_iff. exists x. tauto.
Qed.

Lemma delete_task_unique_ids (id : string) (db : table) :
  unique_ids db -> unique_ids (fst (delete_task id db)).
Proof.
  intros Hu. unfold delete_task, delete_by_id.
  destruct (Z.of_nat (List.length (filter (has_id id) db)) =? 0);
    cbn [fst]; [exact Hu|].
  now apply unique_ids_filter.
Qed.

(** X4: the three handlers that write keep the primary key: when no two
    rows of the table share an id, no two rows share one after
    [create_task], [update_task_status] or [delete_task], whatever the
    request and whatever the answer. *)
Theorem handlers_keep_unique_ids (db : table) :
  unique_ids db ->
  (forall now data, unique_ids (fst (create_task now data db))) /\
  (forall id data, unique_ids (fst (update_task_status id data db))) /\
  (forall id, unique_ids (fst (delete_task id db))).
Proof.
  intros Hu. split; [|split]; intros.
  - now apply create_task_unique_ids.
  - now apply update_task_status_unique_ids.
  - now apply delete_task_unique_ids.
Qed.

Lemma handlers_keep_unique_ids_witness :
  let db := [mkTask "T1" "Process data" 30 "completed" 7;
             mkTask "T2" "Backup" 5 "pending" 8] in
  (forall now data, unique_ids (fst (create_task now data db))) /\
  (forall id data, unique_ids (fst (update_task_status id data db))) /\
  (forall id, unique_ids (fst (delete_task id db))).
Proof.
  intros db. apply (handlers_keep_unique_ids db).
  unfold unique_ids, db. cbn [map task_str_id].
  constructor.
  - intros [H|[]]. discriminate H.
  - constructor; [intros [] | constructor].
Defined.

Lemma run_status_updates_completed_witness :
  let t := mkTask "T1" "Process data" 30 "completed" 7 in
  select_by_id "T1"
    (run_status_updates "T1"
       [Some (mkStatus (Some (PyStr "pending")));
        None;
        Some (mkStatus (Some (PyInt 3)));
        Some (mkStatus (Some (PyStr "completed")));
        Some (mkStatus (Some (PyStr "processing")))]
       [mkTask "T0" "Backup" 5 "pending" 6; t]) = Some t.
Proof.
  intros t.
  apply (run_status_updates_completed "T1" _
           [mkTask "T0" "Backup" 5 "pending" 6; t] t); reflexivity.
Defined.

(** ** Creation: what is checked, what is written *)

(** X5: with the three fields present, an estimate that is not an [int]
    above 0 (a string, a float, [null], a list, an object, [false], or an
    integer that is 0 or negative) is answered 400 ['estimated_time_minutes
    must be greater than 0'] before the table is read: the answer is the
    same whether the id is stored or not, and the table is as it was. *)
Theorem create_task_bad_estimate (now : Z) (id desc : string) (v : pyval)
    (db : table) :
  ~ positive_int v ->
  create_task now (Some (mkCreate (Some id) (Some desc) (Some v))) db =
    (db, error "estimated_time_minutes must be greater than 0" 400).
Proof.
  intros Hv. unfold create_task. cbn.
  destruct (as_int v) as [m|] eqn:Hm; [|reflexivity].
  destruct (Z.leb_spec m 0) as [_|Hpos]; [reflexivity|].
  destruct Hv. now exists m.
Qed.

Lemma create_task_bad_estimate_witness :
  create_task 9 (Some (mkCreate (Some "T1") (Some "Again")
                                (Some (PyStr "30"))))
    [mkTask "T1" "Process data" 30 "pending" 7] =
    ([mkTask "T1" "Process data" 30 "pending" 7],
     error "estimated_time_minutes must be greater than 0" 400).
Proof.
  apply (create_task_bad_estimate 9 "T1" "Again" (PyStr "30")
           [mkTask "T1" "Process data" 30 "pending" 7]).
  intros [m [Hm _]]. discriminate Hm.
Defined.




(** ** Status update: what is checked, what is written *)

(** X7: [update_task_status] rewrites nothing but a status.  Whatever the
    request (no body, a body without [new_status], or any [new_status]
    value), the table after it has the rows of the table before it, in the
    same order, with the same id, description, estimate and
    [submitted_at]; and unless the answer is 200 the table is exactly as
    it was. *)
Theorem update_task_status_writes_status_only (id : string)
    (data : option status_body) (db : table) :
  let r := update_task_status id data db in
  let kept (t : task) :=
    (task_str_id t, description t, estimated_time_minutes t,
     submitted_at t) in
  map kept (fst r) = map kept db /\
  (snd (snd r) <> 200 -> fst r = db).
Proof.
  intros r kept. subst r.
  assert (Hkept : forall s, map kept (update_status s id db) = map kept db).
  { intros s. unfold update_status. rewrite map_map. apply map_ext.
    intros t. now destruct (has_id id t). }
  unfold update_task_status, missing_field.
  destruct data as [[[v|]]|]; cbn [sb_new_status];
    try (cbn; tauto).
  destruct (py_in v allowed_statuses); cbn [negb]; [|cbn; tauto].
  destruct v; try (cbn; tauto).
  destruct (select_by_id id db) as [t|] eqn:Hsel; [|cbn; tauto].
  cbv zeta.
  destruct (pair_in _ _); [cbn; tauto|].
  rewrite select_by_id_update_status, Hsel. cbn [option_map fst snd].
  split; [apply Hkept|]. intros H. now destruct H.
Qed.

(** X8: a [new_status] that is not one of the strings ['pending'],
    ['processing'], ['completed'] (another string, or a value that is not a
    string) is answered 400 with the list of the allowed values, whether the
    id is stored or not, and the table is as it was. *)
Theorem update_task_status_invalid_value (id : string) (v : pyval)
    (db : table) :
  (forall s, v = PyStr s -> ~ In s allowed_statuses) ->
  update_task_status id (Some (mkStatus (Some v))) db =
    (db, error
           "Invalid status. Allowed values: ['pending', 'processing', 'completed']"
           400).
Proof.
  intros Hv. apply update_task_status_invalid_status.
  destruct v; try reflexivity.
  cbn [py_in]. apply str_not_in. now apply Hv.
Qed.

Lemma update_task_status_invalid_value_witness :
  update_task_status "T1" (Some (mkStatus (Some (PyStr "Pending"))))
    [mkTask "T1" "Process data" 30 "processing" 7] =
    ([mkTask "T1" "Process data" 30 "processing" 7],
     error
       "Invalid status. Allowed values: ['pending', 'processing', 'completed']"
       400).
Proof.
  apply (update_task_status_invalid_value "T1" (PyStr "Pending")
           [mkTask "T1" "Process data" 30 "processing" 7]).
  intros s Hs. injection Hs as <-.
  intros [H|[H|[H|[]]]]; discriminate H.
Defined.

(** ** The lifecycle along a sequence of requests *)

(** One request either leaves the row of the task as it is or stores a
    status that the table of forbidden pairs lets through. *)
Lemma update_task_status_step (id : string) (r : option status_body)
    (db : table) (t : task) :
  select_by_id id db = Some t ->
  select_by_id id (fst (update_task_status id r db)) = Some t \/
  exists new,
    In new allowed_statuses /\
    ~ In (status t, new) invalid_transitions /\
    select_by_id id (fst (update_task_status id r db)) =
      Some (set_status new t).
Proof.
  intros Hsel.
  destruct r as [[[v|]]|]; try (left; exact Hsel).
  destruct (py_in v allowed_statuses) eqn:Hv.
  - destruct v as [| | | |new| |]; try discriminate Hv.
    cbn [py_in] in Hv. apply str_in_In in Hv.
    rewrite (update_task_status_stored id new db t Hsel Hv).
    destruct (pair_in (status t, new) invalid_transitions) eqn:Hp;
      [left; exact Hsel|].
    right. exists new. split; [exact Hv|]. split.
    + intros Hin. apply pair_in_In in Hin. congruence.
    + cbn [fst]. now rewrite select_by_id_update_status, Hsel.
  - left. now rewrite update_task_status_invalid_status.
Qed.

(** X10: a task that is processing never returns to pending: after any
    sequence of status requests, whatever their bodies, its row is stored
    with status ['processing'] or ['completed'], and with the id,
    description, estimate and [submitted_at] it had. *)
Theorem run_status_updates_processing (id : string)
    (reqs : list (option status_body)) (db : table) (t : task) :
  select_by_id id db = Some t ->
  status t = "processing" \/ status t = "completed" ->
  exists t',
    select_by_id id (run_status_updates id reqs db) = Some t' /\
    erase_status t' = erase_status t /\
    (status t' = "processing" \/ status t' = "completed").
Proof.
  revert db t. induction reqs as [|r reqs IH]; intros db t Hsel Hst.
  - exists t. auto.
  - cbn [run_status_updates].
    destruct (update_task_status_step id r db t Hsel)
      as [Hsame|[new [Hall [Hok Hnew]]]].
    + now apply IH.
    + destruct (IH _ _ Hnew) as [t' [Hsel' [Her Hst']]].
      * cbn [set_status status].
        destruct Hall as [<-|[<-|[<-|[]]]]; auto.
        destruct Hok. destruct Hst as [->| ->]; simpl; auto.
      * exists t'. split; [exact Hsel'|]. split; [|exact Hst'].
        rewrite Her. reflexivity.
Qed.

Lemma run_status_updates_processing_witness :
  let t := mkTask "T1" "Process data" 30 "processing" 7 in
  exists t',
    select_by_id "T1"
      (run_status_updates "T1"
         [Some (mkStatus (Some (PyStr "pending")));
          Some (mkStatus (Some (PyStr "completed")));
          Some (mkStatus (Some (PyStr "processing")))]
         [t]) = Some t' /\
    erase_status t' = erase_status t /\
    (status t' = "processing" \/ status t' = "completed").
Proof.
  intros t.
  apply (run_status_updates_processing "T1" _ [t] t).
  - reflexivity.
  - left; reflexivity.
Defined.

Lemma update_task_status_passes (id new : string) (db : table) (t : task) :
  select_by_id id db = Some t ->
  In new allowed_statuses ->
  ~ In (status t, new) invalid_transitions ->
  update_task_status id (Some (mkStatus (Some (PyStr new)))) db =
    (update_status new id db, (TaskBody (set_status new t), 200)).
Proof.
  intros Hsel Hall Hok.
  rewrite (update_task_status_stored id new db t Hsel Hall).
  destruct (pair_in (status t, new) invalid_transitions) eqn:Hp;
    [|reflexivity].
  apply pair_in_In in Hp. now destruct Hok.
Qed.




(** ** Reading the table *)

Lemma select_by_id_unique (db : table) (t : task) :
  unique_ids db -> In t db -> select_by_id (task_str_id t) db = Some t.
Proof.
  unfold unique_ids, select_by_id.
  induction db as [|r db IH]; simpl; [tauto|].
  intros Hnd Hin. inversion Hnd as [|? ? Hnotin Hnd']; subst.
  unfold has_id at 1.
  destruct (String.eqb_spec (task_str_id r) (task_str_id t)) as [Heq|Hne].
  - destruct Hin as [->|Hin]; [reflexivity|].
    destruct Hnotin. rewrite Heq. now apply in_map.
  - destruct Hin as [->|Hin]; [congruence | now apply IH].
Qed.

Lemma select_by_id_not_in (id : string) (db : table) :
  ~ In id (map task_str_id db) -> select_by_id id db = None.
Proof.
  unfold select_by_id.
  induction db as [|r db IH]; simpl; [reflexivity|].
  intros Hn. unfold has_id at 1.
  destruct (String.eqb_spec (task_str_id r) id) as [Heq|_]; [tauto|].
  apply IH. tauto.
Qed.

(** X12: on a table that keeps the primary key, [get_task] on the id of a
    stored row answers 200 with exactly that row, and on an id that no row
    carries it answers 404 ['Task not found']; the table is as it was. *)
Theorem get_task_by_key (db : table) :
  unique_ids db ->
  (forall t, In t db ->
             get_task (task_str_id t) db = (db, (TaskBody t, 200))) /\
  (forall id, ~ In id (map task_str_id db) ->
              get_task id db = (db, error "Task not found" 404)).
Proof.
  intros Hu. split.
  - intros t Hin. unfold get_task.
    now rewrite (select_by_id_unique db t Hu Hin).
  - intros id Hn. unfold get_task.
    now rewrite (select_by_id_not_in id db Hn).
Qed.

Lemma get_task_by_key_witness :
  let db := [mkTask "T1" "Process data" 30 "completed" 7;
             mkTask "T2" "Backup" 5 "pending" 8] in
  (forall t, In t db ->
             get_task (task_str_id t) db = (db, (TaskBody t, 200))) /\
  (forall id, ~ In id (map task_str_id db) ->
              get_task id db = (db, error "Task not found" 404)).
Proof.
  intros db. apply (get_task_by_key db).
  unfold unique_ids, db. cbn [map task_str_id].
  constructor.
  - intros [H|[]]. discriminate H.
  - constructor; [intros [] | constructor].
Defined.

(** X11: [list_all_tasks] answers 200 with every row of the table, each as
    often as it is stored and whatever its status, newest [submitted_at]
    first; the table is as it was. *)
Theorem list_all_tasks_newest_first (db : table) :
  exists rows,
    list_all_tasks db = (db, (TaskListBody rows, 200)) /\
    Permutation rows db /\
    StronglySorted (fun a b => submitted_at b <= submitted_at a) rows.
Proof.
  exists (order_by [(ColSubmittedAt, Desc)] db).
  split; [reflexivity|]. split; [apply order_by_perm|].
  eapply StronglySorted_impl; [|apply order_by_sorted].
  intros a b Hab. unfold le_rows in Hab. now apply row_le_desc in Hab.
Qed.

(** ** The pending queries *)

(** [LIMIT] returns rows of its input only. *)
Lemma sql_limit_In (n : Z) (l rows : list task) (t : task) :
  sql_limit n l = Some rows -> In t rows -> In t l.
Proof.
  unfold sql_limit. destruct (in_int64 n); [|discriminate].
  intros Heq. injection Heq as <-.
  destruct (n <? 0); [auto|].
  generalize (Z.to_nat n) as k. intros k. revert l.
  induction k as [|k IH]; intros [|r l]; simpl; try tauto.
  intros [->|Hin]; [now left | right; now apply IH].
Qed.

(** Whatever the parameters, the rows [list_pending_tasks] lists are pending
    rows of the table. *)
Lemma list_pending_tasks_rows (args : pending_args) (db : table)
    (rows : list task) (code : Z) (t : task) :
  snd (list_pending_tasks args db) = (TaskListBody rows, code) ->
  In t rows -> In t db /\ status t = "pending".
Proof.
  unfold list_pending_tasks.
  repeat match goal with
         | |- context [if negb ?b then _ else _] => destruct b; cbn [negb]
         end; cbn [snd]; try discriminate.
  intros Heq Hin. apply select_pending_In.
  eapply Permutation_in; [apply order_by_perm|].
  destruct (truthy_limit (arg_limit args)) as [n|].
  - destruct (sql_limit n _) as [tasks|] eqn:Hlim; [|discriminate].
    cbn [snd] in Heq. injection Heq as <- _.
    exact (sql_limit_In _ _ _ _ Hlim Hin).
  - cbn [snd] in Heq. injection Heq as <- _. exact Hin.
Qed.

Lemma get_next_task_to_process_row (db : table) (t : task) (code : Z) :
  snd (get_next_task_to_process db) = (TaskBody t, code) ->
  In t db /\ status t = "pending" /\
  forall p, In p db -> status p = "pending" -> shortest_then_oldest t p.
Proof.
  unfold get_next_task_to_process, sql_limit; simpl.
  destruct (order_by next_order (select_pending db)) as [|t0 rest] eqn:Hord;
    simpl; [discriminate|].
  intros Heq. injection Heq as -> _.
  destruct (order_by_head_min _ _ _ _ Hord) as [Hin Hmin].
  apply select_pending_In in Hin. destruct Hin as [Hin Hst].
  repeat split; auto.
  intros p Hp Hps. apply row_le_next_order. apply Hmin.
  apply select_pending_In. now split.
Qed.


(** X13: a negative [limit] caps nothing: it is truthy, so the query gets
    its [LIMIT], and a negative [LIMIT] (down to -2^63, the least INTEGER)
    bounds no result; the answer is the answer without a limit, whatever the
    other parameters. *)
Theorem list_pending_tasks_negative_limit (sort_by order : option string)
    (n : Z) (db : table) :
  -9223372036854775808 <= n < 0 ->
  list_pending_tasks (mkArgs sort_by order (Some n)) db =
  list_pending_tasks (mkArgs sort_by order None) db.
Proof.
  intros Hn. unfold list_pending_tasks.
  cbn [arg_sort_by arg_order arg_limit truthy_limit].
  destruct (Z.eqb_spec n 0) as [H0|_]; [lia|].
  unfold sql_limit.
  assert (Hin : in_int64 n = true)
    by (apply in_int64_iff; unfold sqlite_min_int, sqlite_max_int; lia).
  rewrite Hin.
  destruct (Z.ltb_spec n 0) as [_|Hge]; [|lia].
  now repeat match goal with
             | |- context [if negb ?b then _ else _] => destruct b; cbn [negb]
             end.
Qed.

Lemma list_pending_tasks_negative_limit_witness :
  list_pending_tasks (mkArgs (Some "time") (Some "desc") (Some (-1)))
    [mkTask "a" "five" 5 "pending" 1; mkTask "b" "ten" 10 "pending" 2] =
  list_pending_tasks (mkArgs (Some "time") (Some "desc") None)
    [mkTask "a" "five" 5 "pending" 1; mkTask "b" "ten" 10 "pending" 2].
Proof.
  apply (list_pending_tasks_negative_limit (Some "time") (Some "desc") (-1)).
  lia.
Defined.

(** X14: the two pending queries agree on the shortest estimate: when
    [get_next_task_to_process] returns a task, [list_pending_tasks] without
    parameters lists at least one row, and its first row has the estimate
    of that task. *)
Theorem list_pending_tasks_head_is_shortest (db : table) (t : task) :
  snd (get_next_task_to_process db) = (TaskBody t, 200) ->
  exists t' rest,
    list_pending_tasks (mkArgs None None None) db =
      (db, (TaskListBody (t' :: rest), 200)) /\
    estimated_time_minutes t' = estimated_time_minutes t.
Proof.
  intros Hnext.
  destruct (get_next_task_to_process_row db t 200 Hnext)
    as [Hin [Hst Hmin]].
  change (list_pending_tasks (mkArgs None None None) db)
    with (db, (TaskListBody
                 (order_by [(ColEstimatedTimeMinutes, Asc)]
                           (select_pending db)), 200)).
  destruct (order_by [(ColEstimatedTimeMinutes, Asc)] (select_pending db))
    as [|t' rest] eqn:Hord.
  - assert (Hp : In t (select_pending db))
      by (apply select_pending_In; now split).
    apply (Permutation_in _
             (Permutation_sym
                (order_by_perm [(ColEstimatedTimeMinutes, Asc)] _))) in Hp.
    rewrite Hord in Hp. destruct Hp.
  - exists t', rest. split; [reflexivity|].
    destruct (order_by_head_min _ _ _ _ Hord) as [Hin' Hmin'].
    apply select_pending_In in Hin'. destruct Hin' as [Hin' Hst'].
    assert (H1 : estimated_time_minutes t' <= estimated_time_minutes t).
    { apply (row_le_asc ColEstimatedTimeMinutes). apply Hmin'.
      apply select_pending_In. now split. }
    destruct (Hmin t' Hin' Hst') as [Hlt|[Heq _]]; lia.
Qed.

Lemma list_pending_tasks_head_is_shortest_witness :
  let db := [mkTask "A" "a" 10 "pending" 1;
             mkTask "C" "c" 5 "pending" 3;
             mkTask "B" "b" 5 "pending" 2] in
  exists t' rest,
    list_pending_tasks (mkArgs None None None) db =
      (db, (TaskListBody (t' :: rest), 200)) /\
    estimated_time_minutes t' =
      estimated_time_minutes (mkTask "B" "b" 5 "pending" 2).
Proof.
  intros db.
  apply (list_pending_tasks_head_is_shortest db
           (mkTask "B" "b" 5 "pending" 2)).
  reflexivity.
Defined.

(** ** Entering and leaving the queue *)



Lemma update_status_pending_other (new id : string) (db : table)
    (r : task) :
  new <> "pending" ->
  In r (update_status new id db) -> status r = "pending" ->
  task_str_id r <> id.
Proof.
  intros Hnew Hin Hst. unfold update_status in Hin.
  apply in_map_iff in Hin. destruct Hin as [x [Hx _]].
  destruct (has_id id x) eqn:Hid; subst r.
  - cbn in Hst. congruence.
  - unfold has_id in Hid. now apply String.eqb_neq in Hid.
Qed.

(** X17: a task leaves the queue when it leaves pending: after a status
    request that moved the task to ['processing'] or ['completed'], no
    answer of [list_pending_tasks], whatever its parameters, lists a row
    under the id of the task, and [get_next_task_to_process] does not
    return one. *)
Theorem update_task_status_leaves_queue (id new : string) (db : table)
    (t : task) :
  select_by_id id db = Some t ->
  new = "processing" \/ new = "completed" ->
  ~ In (status t, new) invalid_transitions ->
  let db' :=
    fst (update_task_status id (Some (mkStatus (Some (PyStr new)))) db) in
  (forall args rows code r,
     snd (list_pending_tasks args db') = (TaskListBody rows, code) ->
     In r rows -> task_str_id r <> id) /\
  (forall r code,
     snd (get_next_task_to_process db') = (TaskBody r, code) ->
     task_str_id r <> id).
Proof.
  intros Hsel Hnew Hok. cbv zeta.
  assert (Hall : In new allowed_statuses)
    by (destruct Hnew as [->| ->]; simpl; auto).
  assert (Hnp : new <> "pending")
    by (destruct Hnew as [->| ->]; discriminate).
  rewrite (update_task_status_passes id new db t Hsel Hall Hok).
  cbn [fst]. split.
  - intros args rows code r Hrows Hin.
    destruct (list_pending_tasks_rows _ _ _ _ _ Hrows Hin) as [Hr Hst].
    now apply (update_status_pending_other new id db r).
  - intros r code Hnext.
    destruct (get_next_task_to_process_row _ _ _ Hnext) as [Hr [Hst _]].
    now apply (update_status_pending_other new id db r).
Qed.

Lemma update_task_status_leaves_queue_witness :
  let db := [mkTask "T1" "Process data" 30 "pending" 7;
             mkTask "T2" "Backup" 5 "pending" 8] in
  let db' :=
    fst (update_task_status "T2"
           (Some (mkStatus (Some (PyStr "completed")))) db) in
  (forall args rows code r,
     snd (list_pending_tasks args db') = (TaskListBody rows, code) ->
     In r rows -> task_str_id r <> "T2") /\
  (forall r code,
     snd (get_next_task_to_process db') = (TaskBody r, code) ->
     task_str_id r <> "T2").
Proof.
  intros db.
  apply (update_task_status_leaves_queue "T2" "completed" db
           (mkTask "T2" "Backup" 5 "pending" 8)).
  - reflexivity.
  - right; reflexivity.
  - intros [H|[H|[H|[]]]]; discriminate H.
Defined.

(** X18: a deleted task is in no answer: after [delete_task] on an id,
    whatever it answered, neither [list_all_tasks] nor [list_pending_tasks]
    lists a row under that id, and [get_next_task_to_process] does not
    return one. *)
Theorem delete_task_leaves_no_row (id : string) (db : table) :
  let db' := fst (delete_task id db) in
  (forall rows code r,
     snd (list_all_tasks db') = (TaskListBody rows, code) ->
     In r rows -> task_str_id r <> id) /\
  (forall args rows code r,
     snd (list_pending_tasks args db') = (TaskListBody rows, code) ->
     In r rows -> task_str_id r <> id) /\
  (forall r code,
     snd (get_next_task_to_process db') = (TaskBody r, code) ->
     task_str_id r <> id).
Proof.
  cbv zeta.
  assert (Hgone : forall r, In r (fst (delete_task id db)) ->
                            task_str_id r <> id).
  { intros r Hin Hid.
    assert (Hsel : select_by_id id (fst (delete_task id db)) = None).
    { destruct (select_by_id id db) as [t|] eqn:Hs.
      - rewrite (delete_task_stored_eq id db t Hs). cbn [fst].
        apply select_by_id_deleted.
      - now rewrite (delete_task_absent_eq id db Hs). }
    apply (find_none _ _ Hsel) in Hin.
    unfold has_id in Hin. rewrite Hid, String.eqb_refl in Hin.
    discriminate. }
  split; [|split].
  - intros rows code r Heq Hin. apply Hgone.
    unfold list_all_tasks in Heq. cbn [snd] in Heq. injection Heq as <- _.
    eapply Permutation_in; [apply order_by_perm | exact Hin].
  - intros args rows code r Hrows Hin. apply Hgone.
    now destruct (list_pending_tasks_rows _ _ _ _ _ Hrows Hin).
  - intros r code Hnext. apply Hgone.
    now destruct (get_next_task_to_process_row _ _ _ Hnext).
Qed.

(** ** Repeating a request, and a generous limit *)

Lemma update_status_twice (new id : string) (db : table) :
  update_status new id (update_status new id db) = update_status new id db.
Proof.
  unfold update_status. rewrite map_map. apply map_ext.
  intros t. destruct (has_id id t) eqn:Hid.
  - unfold has_id in *. cbn. now rewrite Hid.
  - now rewrite Hid.
Qed.

(** X19: a status request that was let through can be repeated: the same
    request on the table it left gets the same answer, 200 with the same
    row, and leaves the same table. *)
Theorem update_task_status_repeat (id new : string) (db : table) (t : task) :
  select_by_id id db = Some t ->
  In new allowed_statuses ->
  ~ In (status t, new) invalid_transitions ->
  let data := Some (mkStatus (Some (PyStr new))) in
  let r := update_task_status id data db in
  snd (snd r) = 200 /\
  update_task_status id data (fst r) = r.
Proof.
  intros Hsel Hall Hok. cbv zeta.
  rewrite (update_task_status_passes id new db t Hsel Hall Hok).
  cbn [fst snd]. split; [reflexivity|].
  assert (Hsel' : select_by_id id (update_status new id db) =
                  Some (set_status new t))
    by now rewrite select_by_id_update_status, Hsel.
  rewrite (update_task_status_passes id new _ _ Hsel' Hall).
  - now rewrite update_status_twice.
  - cbn [set_status status].
    destruct Hall as [<-|[<-|[<-|[]]]];
      intros [H|[H|[H|[]]]]; discriminate H.
Qed.

Lemma update_task_status_repeat_witness :
  let db := [mkTask "T1" "Process data" 30 "pending" 7] in
  let data := Some (mkStatus (Some (PyStr "completed"))) in
  let r := update_task_status "T1" data db in
  snd (snd r) = 200 /\
  update_task_status "T1" data (fst r) = r.
Proof.
  intros db.
  apply (update_task_status_repeat "T1" "completed" db
           (mkTask "T1" "Process data" 30 "pending" 7)).
  - reflexivity.
  - simpl; auto.
  - intros [H|[H|[H|[]]]]; discriminate H.
Defined.

(** X20: a limit that is at least the number of pending tasks, and at most
    2^63 - 1, cuts nothing: the answer is the answer without a limit,
    whatever the other parameters. *)
Theorem list_pending_tasks_generous_limit (sort_by order : option string)
    (n : Z) (db : table) :
  Z.of_nat
    (List.length (filter (fun t => String.eqb (status t) "pending") db))
    <= n ->
  n <= 9223372036854775807 ->
  list_pending_tasks (mkArgs sort_by order (Some n)) db =
  list_pending_tasks (mkArgs sort_by order None) db.
Proof.
  intros Hn Hmax.
  change (filter (fun t => String.eqb (status t) "pending") db)
    with (select_pending db) in Hn.
  unfold list_pending_tasks.
  cbn [arg_sort_by arg_order arg_limit truthy_limit].
  destruct (Z.eqb_spec n 0) as [H0|_]; [reflexivity|].
  unfold sql_limit.
  assert (Hin : in_int64 n = true)
    by (apply in_int64_iff; unfold sqlite_min_int, sqlite_max_int; lia).
  rewrite Hin.
  destruct (Z.ltb_spec n 0) as [Hlt|Hge]; [lia|].
  rewrite firstn_all2; [reflexivity|].
  rewrite (Permutation_length (order_by_perm _ (select_pending db))). lia.
Qed.

Lemma list_pending_tasks_generous_limit_witness :
  list_pending_tasks (mkArgs (Some "submitted_at") None (Some 2))
    [mkTask "a" "five" 5 "pending" 1; mkTask "b" "ten" 10 "pending" 2;
     mkTask "c" "done" 1 "completed" 3] =
  list_pending_tasks (mkArgs (Some "submitted_at") None None)
    [mkTask "a" "five" 5 "pending" 1; mkTask "b" "ten" 10 "pending" 2;
     mkTask "c" "done" 1 "completed" 3].
Proof.
  apply (list_pending_tasks_generous_limit (Some "submitted_at") None 2).
  - simpl. lia.
  - lia.
Defined.
